(** * Scorekeeper: a shallow embedding of [scorekeeper/scorekeeper.py]

    The module keeps a running score per accumulator class.  The score lives in
    two places: a process-wide dictionary shared by all instances of a class
    (the "Borg" pattern of [_ScorekeeperSharedState]) and a [shelve] database
    on disk.  Calling an accumulator reloads the score from disk, lets it decay
    with the elapsed wall-clock time, adds the new points, and fires a callback
    once the score is above a threshold.

    The embedding is a state-and-exception monad over a [World] that holds the
    shelve database, the shared-state dictionary and the wall clock.  Every
    access of the database made by the scorekeeper's own code is recorded in
    an event log, next to the invocations of callbacks. *)

From Stdlib Require Import ZArith String List Lia.
From stdpp Require Import base option gmap strings.

Local Open Scope string_scope.
Local Open Scope list_scope.
Local Open Scope Z_scope.

(** ** Python values and exceptions *)

(** The values a predicate or a callback hands back to the scorekeeper. *)
Inductive PyVal : Type :=
  | VNone
  | VBool (b : bool)
  | VInt (n : Z)
  | VStr (s : string).

(** Python's truth value testing, [bool(v)]. *)
Definition truthy (v : PyVal) : bool :=
  match v with
  | VNone => false
  | VBool b => b
  | VInt n => negb (n =? 0)
  | VStr s => negb (String.eqb s "")
  end.

Inductive Exn : Type :=
  | ScoreExceededError (msg : string)
  | ZeroDivisionError
  | AttributeError (attr : string)
  | OtherError (msg : string).

Inductive Outcome (A : Type) : Type :=
  | Ret (a : A)
  | Raise (e : Exn).
Arguments Ret {A} a.
Arguments Raise {A} e.

(** ** The world *)

(** A value of the shelve database:
    [{"datetime": datetime.datetime.now(), "score": self.score}].
    A [datetime] is the number of microseconds since some fixed origin, the
    resolution of Python's naive datetimes. *)
Record ScoreRecord : Type := {
  rec_datetime : Z;
  rec_score : Z
}.

(** [store] is the shelve database at [_shelve_path()]; [_shared_state] is the
    class attribute of [_ScorekeeperSharedState], keyed by the class object
    (its identity), whose values are the instances' common [__dict__]: the
    only attribute the module ever stores there is [score], so a [__dict__] is
    [None] while empty and [Some s] once [score] is bound.  [clock] gives the
    reading of the [n]-th call of [datetime.datetime.now()], [ticks] counts
    the calls made so far. *)
Record World : Type := {
  store : gmap string ScoreRecord;
  _shared_state : gmap positive (option Z);
  clock : nat -> Z;
  ticks : nat
}.

Definition set_store (f : gmap string ScoreRecord -> gmap string ScoreRecord)
    (w : World) : World :=
  {| store := f (store w); _shared_state := _shared_state w;
     clock := clock w; ticks := ticks w |}.

Definition set_shared (f : gmap positive (option Z) -> gmap positive (option Z))
    (w : World) : World :=
  {| store := store w; _shared_state := f (_shared_state w);
     clock := clock w; ticks := ticks w |}.

Definition tick (w : World) : World :=
  {| store := store w; _shared_state := _shared_state w;
     clock := clock w; ticks := S (ticks w) |}.

(** What the scorekeeper's own code does to the outside. *)
Inductive Event : Type :=
  | EvRead (key : string)
  | EvWrite (key : string) (r : ScoreRecord)
  | EvCallback.

Definition is_read (e : Event) : bool :=
  match e with EvRead _ => true | _ => false end.
Definition is_write (e : Event) : bool :=
  match e with EvWrite _ _ => true | _ => false end.
Definition is_callback (e : Event) : bool :=
  match e with EvCallback => true | _ => false end.

(** How many events of a log satisfy [p]. *)
Fixpoint count (p : Event -> bool) (tr : list Event) : nat :=
  match tr with
  | [] => 0%nat
  | e :: tr' => ((if p e then 1 else 0) + count p tr')%nat
  end.

(** ** The monad *)

Definition M (A : Type) : Type := World -> Outcome A * World * list Event.

(** [M] is an instance of stdpp's monad classes, which gives the notations
    [x ← m; k] and [m ;; k]: an exception stops the computation and keeps
    the world and the log as they were when it was raised. *)
#[export] Instance M_ret : MRet M := fun A a w => (Ret a, w, []).

#[export] Instance M_bind : MBind M := fun A B k m w =>
  match m w with
  | (Ret a, w1, t1) =>
      match k a w1 with
      | (o, w2, t2) => (o, w2, t1 ++ t2)
      end
  | (Raise e, w1, t1) => (Raise e, w1, t1)
  end.

Definition raise {A} (e : Exn) : M A := fun w => (Raise e, w, []).

Definition emit (e : Event) : M unit := fun w => (Ret tt, w, [e]).

(** Code that is not the scorekeeper's: a predicate wrapped by [score], or a
    callback.  It may do anything to the world and either returns or raises. *)
Definition Callable : Type := World -> Outcome PyVal * World.

Definition call_external (f : Callable) : M PyVal := fun w =>
  match f w with (o, w') => (o, w', []) end.

Definition invoke_callback (f : Callable) : M PyVal :=
  emit EvCallback ;; call_external f.

Definition outcome_of {A} (r : Outcome A * World * list Event) : Outcome A := r.1.1.
Definition world_of {A} (r : Outcome A * World * list Event) : World := r.1.2.
Definition trace_of {A} (r : Outcome A * World * list Event) : list Event := r.2.

(** ** Accumulator classes *)

(** [Scorekeeper] or one of its subclasses.  [cls_id] is the identity of the
    class object, [__name__] its name; the three [own_] fields are the class
    attributes a subclass may override ([None]: the attribute is inherited
    from [Scorekeeper]).  A subclass may bind [default_decay] to Python's
    [None] again, hence the nested option. *)
Record Class : Type := {
  cls_id : positive;
  __name__ : string;
  own_default_threshold : option Z;
  own_default_decay : option (option Z);
  own_default_callback : option Callable
}.

Module Scorekeeper.

(** [default_threshold = 100] *)
Definition default_threshold : Z := 100.

(** [default_decay = None] *)
Definition default_decay : option Z := None.

(** [def default_callback(self): raise ScoreExceededError(...)] *)
Definition default_callback : Callable := fun w =>
  (Raise (ScoreExceededError "Score has been exceeded!"), w).

(** The class [Scorekeeper] itself. *)
Definition class : Class :=
  {| cls_id := 1%positive; __name__ := "Scorekeeper";
     own_default_threshold := None; own_default_decay := None;
     own_default_callback := None |}.

End Scorekeeper.

(** Attribute lookup on an instance of [cls]: the subclass's own binding
    when there is one, [Scorekeeper]'s otherwise. *)
Definition default_threshold (cls : Class) : Z :=
  match own_default_threshold cls with
  | Some t => t
  | None => Scorekeeper.default_threshold
  end.

Definition default_decay (cls : Class) : option Z :=
  match own_default_decay cls with
  | Some d => d
  | None => Scorekeeper.default_decay
  end.

Definition default_callback (cls : Class) : Callable :=
  match own_default_callback cls with
  | Some c => c
  | None => Scorekeeper.default_callback
  end.

(** ** Helpers for Python's built-ins *)

(** The value of an optional integer when it is truthy: [None] and [0] are
    the falsy ones, so [if not x] is the [None] case of [truthy_int x]. *)
Definition truthy_int (x : option Z) : option Z :=
  match x with
  | Some n => if n =? 0 then None else Some n
  | None => None
  end.

(** [timedelta.seconds] of a difference of [d] microseconds.  A timedelta is
    normalised to days, seconds in [0, 86400) and microseconds in
    [0, 1000000); [.seconds] is the middle component only. *)
Definition timedelta_seconds (d : Z) : Z := (d / 1000000) mod 86400.

(** [timedelta.total_seconds()] rounded down to whole seconds: what the
    source does not use. *)
Definition timedelta_whole_seconds (d : Z) : Z := d / 1000000.

(** [datetime.datetime.now()] *)
Definition datetime_now : M Z := fun w => (Ret (clock w (ticks w)), tick w, []).

(** [self.score] and [self.score = v].  The instance's [__dict__] is the
    dictionary that [_shared_state] holds for its class. *)
Definition getattr_score (cls : Class) : M Z := fun w =>
  match _shared_state w !! cls_id cls with
  | Some (Some s) => (Ret s, w, [])
  | _ => (Raise (AttributeError "score"), w, [])
  end.

Definition setattr_score (cls : Class) (v : Z) : M unit := fun w =>
  (Ret tt, set_shared <[cls_id cls := Some v]> w, []).

(** ** The methods of [Scorekeeper] *)

(** [_ScorekeeperSharedState.__init__]:
    [self.__dict__ = _shared_state.setdefault(type(self), {})] *)
Definition _ScorekeeperSharedState__init__ (cls : Class) : M unit := fun w =>
  match _shared_state w !! cls_id cls with
  | Some _ => (Ret tt, w, [])
  | None => (Ret tt, set_shared <[cls_id cls := None]> w, [])
  end.

(** [db = shelve.open(path); result = db.get(key); db.close()] and
    [db = shelve.open(path); db[key] = r; db.close()]: one read and one
    write of the database. *)
Definition shelve_get (key : string) : M (option ScoreRecord) := fun w =>
  (Ret (store w !! key), w, [EvRead key]).

Definition shelve_set (key : string) (r : ScoreRecord) : M unit := fun w =>
  (Ret tt, set_store <[key := r]> w, [EvWrite key r]).

(** [_get_score]: the record under the class's name, or [(None, 0)]. *)
Definition _get_score (cls : Class) : M (option Z * Z) :=
  let key := __name__ cls in
  result ← shelve_get key;
  mret (rec_datetime <$> result, from_option rec_score 0 result).

(** [_set_score]: the dictionary display evaluates [datetime.now()] before
    [self.score]. *)
Definition _set_score (cls : Class) : M unit :=
  let key := __name__ cls in
  now ← datetime_now;
  s ← getattr_score cls;
  shelve_set key {| rec_datetime := now; rec_score := s |}.

(** [Scorekeeper.__init__] *)
Definition __init__ (cls : Class) : M unit :=
  _ScorekeeperSharedState__init__ cls ;;
  r ← _get_score cls;
  setattr_score cls r.2.

(** [_seconds_since_last_score].  A [datetime] is always truthy, so
    [if not last_time] is the test for [None]. *)
Definition _seconds_since_last_score (cls : Class) : M Z :=
  r ← _get_score cls;
  match r.1 with
  | None => mret 0
  | Some last_time =>
      now ← datetime_now;
      mret (timedelta_seconds (now - last_time))
  end.

(** [_decay].  [time] is an integer in [0, 86400) and [rate] an integer, so
    the float [time / rate] truncated by [int] is the quotient rounded
    towards zero.  Rates that are floats are not modelled. *)
Definition _decay (cls : Class) (rate : Z) : M unit :=
  time ← _seconds_since_last_score cls;
  if rate =? 0 then raise ZeroDivisionError else
  let decay := Z.quot time rate in
  s ← getattr_score cls;
  setattr_score cls (Z.max 0 (s - decay)).

(** [reset_score] *)
Definition reset_score (cls : Class) : M unit :=
  setattr_score cls 0 ;;
  _set_score cls.

(** Lines 85 to 90 of [__call__]: the three [if not x: x = self.default_x].
    An integer is falsy when it is 0; a callable (a function, a lambda, a
    bound method) is always truthy, so only [None] is replaced. *)
Definition resolve_threshold (cls : Class) (threshold : option Z) : Z :=
  match truthy_int threshold with
  | None => default_threshold cls
  | Some t => t
  end.

Definition resolve_decay (cls : Class) (decay : option Z) : option Z :=
  match truthy_int decay with
  | None => default_decay cls
  | Some d => Some d
  end.

Definition resolve_callback (cls : Class) (callback : option Callable)
    : option Callable :=
  match callback with
  | None => Some (default_callback cls)
  | Some c => Some c
  end.

(** Lines 92 to 94: reload the score, then [if decay: self._decay(decay)]. *)
Definition load_and_decay (cls : Class) (decay : option Z) : M unit :=
  r ← _get_score cls;
  setattr_score cls r.2 ;;
  match truthy_int decay with
  | Some rate => _decay cls rate
  | None => mret tt
  end.

(** Line 95, [self.score += score], and the read of [self.score] of line 96. *)
Definition add_points (cls : Class) (score : Z) : M Z :=
  s ← getattr_score cls;
  setattr_score cls (s + score) ;;
  getattr_score cls.

(** Lines 96 to 100. *)
Definition check_threshold (cls : Class) (threshold : Z)
    (callback : option Callable) (s : Z) : M PyVal :=
  return_value ←
    (if s >? threshold then
       reset_score cls ;;
       invoke_callback (match callback with
                        | None => default_callback cls
                        | Some c => c
                        end)
     else mret VNone);
  _set_score cls ;;
  mret return_value.

(** [Scorekeeper.__call__], whose [threshold], [decay] and [callback]
    default to Python's [None]. *)
Definition __call__ (cls : Class) (score : Z) (threshold decay : option Z)
    (callback : option Callable) : M PyVal :=
  let threshold := resolve_threshold cls threshold in
  let decay := resolve_decay cls decay in
  let callback := resolve_callback cls callback in
  load_and_decay cls decay ;;
  s ← add_points cls score;
  check_threshold cls threshold callback s.

(** ** The decorator *)

(** The keyword arguments that [score] passes on to [__call__]. *)
Record Kwargs : Type := {
  kw_threshold : option Z;
  kw_decay : option Z;
  kw_callback : option Callable
}.

(** The decorator [score], its arguments, the decorated [func] and the
    arguments of a call of the resulting [wrapper], all in one: the body of
    [wrapper].  [func] is called without arguments and [wrapper] has no
    [return] statement. *)
Definition score (scorekeeper_class : Class) (points : Z) (kwargs : Kwargs)
    (func : Callable) (args : list PyVal) : M PyVal :=
  v ← call_external func;
  (if negb (truthy v) then
     __init__ scorekeeper_class ;;
     __call__ scorekeeper_class points (kw_threshold kwargs)
       (kw_decay kwargs) (kw_callback kwargs) ;;
     mret tt
   else mret tt) ;;
  mret VNone.

(** ** Observations *)

(** The score bound in the shared [__dict__] of [cls], if any. *)
Definition mem_score (cls : Class) (w : World) : option Z :=
  match _shared_state w !! cls_id cls with
  | Some (Some s) => Some s
  | _ => None
  end.

(** The record that the database holds for [cls]. *)
Definition stored (cls : Class) (w : World) : option ScoreRecord :=
  store w !! __name__ cls.

Definition stored_score (cls : Class) (w : World) : Z :=
  from_option rec_score 0 (stored cls w).

Definition is_Some_b {A} (o : option A) : bool :=
  match o with Some _ => true | None => false end.

(** Whether [_decay] runs, and whether it then reads the clock. *)
Definition decays (decay : option Z) : bool :=
  match truthy_int decay with Some _ => true | None => false end.

Definition clock_reads (cls : Class) (decay : option Z) (w : World) : nat :=
  if decays decay then (if is_Some_b (stored cls w) then 1%nat else 0%nat)
  else 0%nat.

(** What [_seconds_since_last_score] returns in [w]. *)
Definition elapsed (cls : Class) (w : World) : Z :=
  match stored cls w with
  | None => 0
  | Some r => timedelta_seconds (clock w (ticks w) - rec_datetime r)
  end.

(** The score that lines 92 to 94 leave in [self.score]. *)
Definition decayed (cls : Class) (decay : option Z) (w : World) : Z :=
  match truthy_int decay with
  | Some rate => Z.max 0 (stored_score cls w - Z.quot (elapsed cls w) rate)
  | None => stored_score cls w
  end.

(** The callable that line 98 calls. *)
Definition effective_callback (cls : Class) (callback : option Callable)
    : Callable :=
  match resolve_callback cls callback with
  | None => default_callback cls
  | Some c => c
  end.

(** The score after line 95, the one that line 96 compares with the
    threshold. *)
Definition post_add_score (cls : Class) (score : Z) (decay : option Z)
    (w : World) : Z :=
  decayed cls (resolve_decay cls decay) w + score.

(** The reads of the database that one call makes. *)
Definition call_reads (cls : Class) (decay : option Z) : list Event :=
  EvRead (__name__ cls) ::
    (if decays (resolve_decay cls decay) then [EvRead (__name__ cls)] else []).

(** The clock reading that the first write of a call takes. *)
Definition write_time (cls : Class) (decay : option Z) (w : World) : Z :=
  clock w (ticks w + clock_reads cls (resolve_decay cls decay) w)%nat.

(** The world in which the callback of a call on [w] starts: that of line 98,
    after [reset_score]. *)
Definition world_at_callback (cls : Class) (decay : option Z) (w : World)
    : World :=
  {| store := <[__name__ cls :=
                  {| rec_datetime := write_time cls decay w; rec_score := 0 |}]>
                (store w);
     _shared_state := <[cls_id cls := Some 0]> (_shared_state w);
     clock := clock w;
     ticks := S (ticks w + clock_reads cls (resolve_decay cls decay) w) |}.

(** ** Callbacks that leave the accumulator alone *)

(** [f] changes neither the score of [cls] in memory nor its record in the
    database. *)
Definition keeps_scores (cls : Class) (f : Callable) : Prop :=
  forall w, mem_score cls (f w).2 = mem_score cls w /\
            stored cls (f w).2 = stored cls w.

(** [f] cannot change what the clock reads, it can only let time pass. *)
Definition keeps_clock (f : Callable) : Prop :=
  forall w, clock (f w).2 = clock w /\ (ticks w <= ticks (f w).2)%nat.

(** Whether line 99 writes a second time: the threshold is exceeded and the
    callback returns with [score] still bound. *)
Definition second_write (cls : Class) (score : Z) (threshold decay : option Z)
    (callback : option Callable) (w : World) : bool :=
  (resolve_threshold cls threshold <? post_add_score cls score decay w) &&
  match effective_callback cls callback (world_at_callback cls decay w) with
  | (Ret _, wc) => is_Some_b (mem_score cls wc)
  | (Raise _, _) => false
  end.

(** ** Non-negative scores *)

(** Every score in the database and in the shared dictionaries is at least
    zero. *)
Definition nonneg_scores (w : World) : Prop :=
  (forall k r, store w !! k = Some r -> 0 <= rec_score r) /\
  (forall c s, _shared_state w !! c = Some (Some s) -> 0 <= s).

Definition preserves_nonneg (f : Callable) : Prop :=
  forall w, nonneg_scores w -> nonneg_scores (f w).2.

(** The public operations on an accumulator. *)
Inductive Op : Type :=
  | OpInit (cls : Class)
  | OpCall (cls : Class) (score : Z) (threshold decay : option Z)
      (callback : option Callable)
  | OpReset (cls : Class).

Definition run_op (op : Op) (w : World) : World :=
  match op with
  | OpInit cls => world_of (__init__ cls w)
  | OpCall cls score threshold decay callback =>
      world_of (__call__ cls score threshold decay callback w)
  | OpReset cls => world_of (reset_score cls w)
  end.

Fixpoint run_ops (ops : list Op) (w : World) : World :=
  match ops with
  | [] => w
  | op :: ops' => run_ops ops' (run_op op w)
  end.

(** Calls that add no negative points and whose callback keeps the scores
    non-negative. *)
Definition adds_only (op : Op) : Prop :=
  match op with
  | OpCall cls score _ _ callback =>
      0 <= score /\ preserves_nonneg (effective_callback cls callback)
  | _ => True
  end.

(** ** Concrete classes and worlds *)

Module Scenarios.

(** A process that has just started on an empty database; the clock reads
    one second more at every call. *)
Definition fresh_world : World :=
  {| store := ∅; _shared_state := ∅;
     clock := fun n => 1000000 * Z.of_nat n; ticks := 0 |}.

(** A database that holds [score] for [name], written at [last]; the next
    reading of the clock is [now]. *)
Definition aged_world (name : string) (score last now : Z) : World :=
  {| store := {[ name := {| rec_datetime := last; rec_score := score |} ]};
     _shared_state := ∅;
     clock := fun n => now + Z.of_nat n; ticks := 0 |}.

(** [class Cooling(Scorekeeper): default_decay = 5] *)
Definition Cooling : Class :=
  {| cls_id := 2%positive; __name__ := "Cooling";
     own_default_threshold := None; own_default_decay := Some (Some 5);
     own_default_callback := None |}.

(** [class Strict(Scorekeeper): default_threshold = 50] *)
Definition Strict : Class :=
  {| cls_id := 3%positive; __name__ := "Strict";
     own_default_threshold := Some 50; own_default_decay := None;
     own_default_callback := None |}.

(** A second class that is also named [Scorekeeper], as a module of its
    own can define. *)
Definition Homonym : Class :=
  {| cls_id := 4%positive; __name__ := "Scorekeeper";
     own_default_threshold := None; own_default_decay := None;
     own_default_callback := None |}.

(** [lambda: 7] *)
Definition seven : Callable := fun w => (Ret (VInt 7), w).

Definition one_day : Z := 86400 * 1000000.

End Scenarios.

(** ** Sequences of calls *)

(** The accumulator called once for each of [ps], in order, with the
    defaults for threshold, decay and callback; an exception of a call is
    dropped, as a caller that catches it does. *)
Fixpoint run_calls (cls : Class) (ps : list Z) (w : World) : World :=
  match ps with
  | [] => w
  | p :: ps' => run_calls cls ps' (world_of (__call__ cls p None None None w))
  end.

(** Starting from [acc], no partial sum of [ps] goes above [limit]. *)
Fixpoint stays_below (limit acc : Z) (ps : list Z) : Prop :=
  match ps with
  | [] => True
  | p :: ps' => acc + p <= limit /\ stays_below limit (acc + p) ps'
  end.

Definition total (ps : list Z) : Z := fold_right Z.add 0 ps.

(** [lambda: 7] for a callback that also binds the score to 5 on its way. *)
Definition Scenarios_meddling : Callable := fun w =>
  (Ret (VInt 7), set_shared <[1%positive := Some 5]> w).

(** * Proofs *)

(** ** Running the methods *)

Ltac unfold_m :=
  unfold mbind, M_bind, mret, M_ret, raise.

Ltac unfold_world := unfold set_shared, set_store, tick; cbn.

Lemma truthy_int_nonzero x n : truthy_int x = Some n -> n <> 0.
Proof.
  unfold truthy_int. destruct x as [m|]; [|discriminate].
  destruct (Z.eqb_spec m 0); [discriminate|]. intros [= <-]. assumption.
Qed.

Lemma load_and_decay_run cls decay w :
  load_and_decay cls decay w =
    (Ret tt,
     {| store := store w;
        _shared_state := <[cls_id cls := Some (decayed cls decay w)]> (_shared_state w);
        clock := clock w;
        ticks := (ticks w + clock_reads cls decay w)%nat |},
     EvRead (__name__ cls) ::
       (if decays decay then [EvRead (__name__ cls)] else [])).
Proof.
  unfold load_and_decay, decayed, clock_reads, decays, elapsed, stored_score, stored.
  destruct (truthy_int decay) as [rate|] eqn:Hd.
  - pose proof (truthy_int_nonzero _ _ Hd) as Hr.
    apply Z.eqb_neq in Hr.
    unfold _decay, _seconds_since_last_score, _get_score, shelve_get,
      setattr_score, getattr_score, datetime_now. unfold_m. cbn.
    destruct (store w !! __name__ cls) as [r|]; cbn; rewrite Hr; cbn;
      rewrite lookup_insert_eq; unfold_world; rewrite insert_insert_eq;
      repeat f_equal; lia.
  - unfold _get_score, shelve_get, setattr_score. unfold_m. unfold_world.
    repeat f_equal; lia.
Qed.

Lemma _set_score_run cls w :
  _set_score cls w =
    match mem_score cls w with
    | Some s =>
        let r := {| rec_datetime := clock w (ticks w); rec_score := s |} in
        (Ret tt,
         {| store := <[__name__ cls := r]> (store w);
            _shared_state := _shared_state w;
            clock := clock w; ticks := S (ticks w) |},
         [EvWrite (__name__ cls) r])
    | None => (Raise (AttributeError "score"), tick w, [])
    end.
Proof.
  unfold _set_score, mem_score, datetime_now, getattr_score, shelve_set.
  unfold_m. unfold_world.
  destruct (_shared_state w !! cls_id cls) as [[s|]|]; reflexivity.
Qed.

Lemma accumulate_run cls score decay w :
  (load_and_decay cls decay ;; add_points cls score) w =
    (Ret (decayed cls decay w + score),
     {| store := store w;
        _shared_state :=
          <[cls_id cls := Some (decayed cls decay w + score)]> (_shared_state w);
        clock := clock w;
        ticks := (ticks w + clock_reads cls decay w)%nat |},
     EvRead (__name__ cls) ::
       (if decays decay then [EvRead (__name__ cls)] else [])).
Proof.
  unfold mbind at 1. unfold M_bind. rewrite load_and_decay_run.
  unfold add_points, getattr_score, setattr_score. unfold_m. unfold_world.
  rewrite lookup_insert_eq. cbn. rewrite lookup_insert_eq, insert_insert_eq.
  rewrite app_nil_r. reflexivity.
Qed.

Lemma call_split cls score threshold decay callback w :
  __call__ cls score threshold decay callback w =
    ((load_and_decay cls (resolve_decay cls decay) ;; add_points cls score) ≫=
       check_threshold cls (resolve_threshold cls threshold)
         (resolve_callback cls callback)) w.
Proof.
  unfold __call__. unfold_m.
  destruct (load_and_decay cls (resolve_decay cls decay) w) as [[[[]|e] w1] t1];
    [|reflexivity].
  destruct (add_points cls score w1) as [[[s|e] w2] t2]; [|reflexivity].
  destruct (check_threshold _ _ _ s w2) as [[o w3] t3].
  rewrite app_assoc. reflexivity.
Qed.

(** A call that stays at or below the threshold. *)
Lemma call_below cls score threshold decay callback w :
  post_add_score cls score decay w <= resolve_threshold cls threshold ->
  __call__ cls score threshold decay callback w =
    let r := {| rec_datetime := write_time cls decay w;
                rec_score := post_add_score cls score decay w |} in
    (Ret VNone,
     {| store := <[__name__ cls := r]> (store w);
        _shared_state :=
          <[cls_id cls := Some (post_add_score cls score decay w)]>
            (_shared_state w);
        clock := clock w;
        ticks := S (ticks w + clock_reads cls (resolve_decay cls decay) w) |},
     call_reads cls decay ++ [EvWrite (__name__ cls) r]).
Proof.
  intros Hle. rewrite call_split.
  unfold mbind at 1. unfold M_bind. rewrite accumulate_run.
  fold (post_add_score cls score decay w).
  unfold check_threshold.
  destruct (Z.gtb_spec (post_add_score cls score decay w)
              (resolve_threshold cls threshold)) as [Hgt|_]; [lia|].
  unfold mbind, M_bind, mret, M_ret. rewrite _set_score_run.
  unfold mem_score. cbn. rewrite lookup_insert_eq. cbn.
  reflexivity.
Qed.

(** A call that goes above the threshold: the callback starts in
    [world_at_callback]; when it raises, the call is over; when it returns,
    line 99 writes whatever score the callback has left. *)
Lemma call_above cls score threshold decay callback w :
  resolve_threshold cls threshold < post_add_score cls score decay w ->
  __call__ cls score threshold decay callback w =
    let r0 := {| rec_datetime := write_time cls decay w; rec_score := 0 |} in
    let pre := call_reads cls decay ++ [EvWrite (__name__ cls) r0; EvCallback] in
    match effective_callback cls callback (world_at_callback cls decay w) with
    | (Raise e, wc) => (Raise e, wc, pre)
    | (Ret v, wc) =>
        match mem_score cls wc with
        | Some s =>
            let r := {| rec_datetime := clock wc (ticks wc); rec_score := s |} in
            (Ret v,
             {| store := <[__name__ cls := r]> (store wc);
                _shared_state := _shared_state wc;
                clock := clock wc; ticks := S (ticks wc) |},
             pre ++ [EvWrite (__name__ cls) r])
        | None => (Raise (AttributeError "score"), tick wc, pre)
        end
    end.
Proof.
  intros Hgt. rewrite call_split.
  unfold mbind at 1. unfold M_bind. rewrite accumulate_run.
  fold (post_add_score cls score decay w).
  unfold check_threshold.
  destruct (Z.gtb_spec (post_add_score cls score decay w)
              (resolve_threshold cls threshold)) as [_|Hle]; [|lia].
  unfold reset_score, invoke_callback, call_external, emit, setattr_score.
  unfold mbind, M_bind, mret, M_ret. rewrite _set_score_run.
  unfold mem_score. unfold_world. rewrite lookup_insert_eq, insert_insert_eq.
  fold (write_time cls decay w). fold (world_at_callback cls decay w).
  fold (effective_callback cls callback).
  destruct (effective_callback cls callback (world_at_callback cls decay w))
    as [[v|e] wc]; cbn.
  - rewrite _set_score_run. unfold mem_score.
    destruct (_shared_state wc !! cls_id cls) as [[s|]|]; cbn;
      unfold call_reads; destruct (decays (resolve_decay cls decay)); reflexivity.
  - unfold call_reads; destruct (decays (resolve_decay cls decay)); reflexivity.
Qed.

(** ** Decay *)

Lemma decayed_unfold cls decay rate w :
  truthy_int decay = Some rate ->
  decayed cls decay w = Z.max 0 (stored_score cls w - Z.quot (elapsed cls w) rate).
Proof. unfold decayed. intros ->. reflexivity. Qed.

Lemma timedelta_seconds_range d : 0 <= timedelta_seconds d < 86400.
Proof. unfold timedelta_seconds. apply Z.mod_pos_bound. lia. Qed.

Lemma timedelta_seconds_mod_day d :
  timedelta_seconds d = timedelta_whole_seconds d mod 86400.
Proof. reflexivity. Qed.

Lemma timedelta_seconds_within_day d :
  0 <= d < 86400 * 1000000 ->
  timedelta_seconds d = timedelta_whole_seconds d.
Proof.
  intros [H0 H1]. unfold timedelta_seconds, timedelta_whole_seconds.
  apply Z.mod_small. split.
  - apply Z.div_pos; lia.
  - apply Z.div_lt_upper_bound; lia.
Qed.

(** With a positive integer rate the decay of the source is the stored score
    less the quotient, rounded down, of the seconds component of the elapsed
    time: whole days are left out. *)
Lemma decayed_positive_rate cls D r w :
  0 < D ->
  stored cls w = Some r ->
  decayed cls (Some D) w =
    Z.max 0 (rec_score r -
      (timedelta_whole_seconds (clock w (ticks w) - rec_datetime r) mod 86400) / D).
Proof.
  intros HD Hr.
  assert (Ht : truthy_int (Some D) = Some D).
  { unfold truthy_int. destruct (Z.eqb_spec D 0); [lia|reflexivity]. }
  rewrite (decayed_unfold _ _ _ _ Ht).
  unfold stored_score, elapsed. rewrite Hr. cbn.
  rewrite Z.quot_div_nonneg; [reflexivity| |lia].
  apply timedelta_seconds_range.
Qed.

(** Up to one day after the last update the decay is the one of the
    documentation: one point every [D] seconds. *)
Lemma decayed_within_day cls D r w :
  0 < D ->
  stored cls w = Some r ->
  0 <= clock w (ticks w) - rec_datetime r < 86400 * 1000000 ->
  decayed cls (Some D) w =
    Z.max 0 (rec_score r -
      timedelta_whole_seconds (clock w (ticks w) - rec_datetime r) / D).
Proof.
  intros HD Hr Ht. rewrite (decayed_positive_rate _ _ _ _ HD Hr).
  rewrite <- timedelta_seconds_mod_day, timedelta_seconds_within_day by assumption.
  reflexivity.
Qed.

Lemma decayed_no_record cls decay w :
  stored cls w = None -> decayed cls decay w = 0.
Proof.
  intros Hr. unfold decayed, stored_score, elapsed. rewrite Hr. cbn.
  destruct (truthy_int decay) as [rate|] eqn:Hd; [|reflexivity].
  rewrite Z.quot_0_l by exact (truthy_int_nonzero _ _ Hd). reflexivity.
Qed.

(** ** The scenarios of the documentation *)

(** A new accumulator called with 10 returns [None] and holds 10. *)
Example scenario_first_points :
  let r := (__init__ Scorekeeper.class ;;
            __call__ Scorekeeper.class 10 None None None)
             Scenarios.fresh_world in
  outcome_of r = Ret VNone /\
  mem_score Scorekeeper.class (world_of r) = Some 10 /\
  stored_score Scorekeeper.class (world_of r) = 10.
Proof. vm_compute. repeat split. Qed.

(** 10 then 95 is 105, above 100: the default callback raises and the score
    is back to 0. *)
Example scenario_threshold_exceeded :
  let r := (__call__ Scorekeeper.class 10 None None None ;;
            __call__ Scorekeeper.class 95 None None None)
             Scenarios.fresh_world in
  outcome_of r = Raise (ScoreExceededError "Score has been exceeded!") /\
  mem_score Scorekeeper.class (world_of r) = Some 0 /\
  stored_score Scorekeeper.class (world_of r) = 0.
Proof. vm_compute. repeat split. Qed.

(** A score of 20, 12 seconds old, with a decay of 5: two points are gone. *)
Example scenario_decay :
  let w := Scenarios.aged_world "Scorekeeper" 20 0 12000000 in
  mem_score Scorekeeper.class
    (world_of (__call__ Scorekeeper.class 0 None (Some 5) None w)) = Some 18.
Proof. vm_compute. reflexivity. Qed.

(** A predicate that fails twice, 60 points each: 60, then 120 and the
    callback; a predicate that succeeds leaves the score alone. *)
Example scenario_wrapped_failures :
  let kw := {| kw_threshold := Some 100; kw_decay := None;
               kw_callback := Some Scenarios.seven |} in
  let failing : Callable := fun w => (Ret (VBool false), w) in
  let passing : Callable := fun w => (Ret (VBool true), w) in
  let once := score Scorekeeper.class 60 kw failing [] Scenarios.fresh_world in
  let twice := score Scorekeeper.class 60 kw failing [] (world_of once) in
  let after := score Scorekeeper.class 60 kw passing [] (world_of once) in
  mem_score Scorekeeper.class (world_of once) = Some 60 /\
  count is_callback (trace_of once) = 0%nat /\
  mem_score Scorekeeper.class (world_of twice) = Some 0 /\
  count is_callback (trace_of twice) = 1%nat /\
  outcome_of twice = Ret VNone /\
  mem_score Scorekeeper.class (world_of after) = Some 60 /\
  stored_score Scorekeeper.class (world_of after) = 60.
Proof. vm_compute. repeat split. Qed.

(** ** The claims about decay *)

(** C1 — the decay before the points are added is claimed to be
    [max(0, S - floor(T / D))] for the full elapsed time [T].  The source
    takes [timedelta.seconds], the seconds component of the difference, which
    leaves whole days out: with a score of 20 written exactly one day ago and
    a decay of 5, the full elapsed time is 86400 seconds and the claimed score
    is 0, while [__call__] goes on with 20 and stores 20. *)
Theorem C1_decay_drops_whole_days :
  let cls := Scorekeeper.class in
  let w := Scenarios.aged_world "Scorekeeper" 20 0 Scenarios.one_day in
  stored cls w = Some {| rec_datetime := 0; rec_score := 20 |} /\
  timedelta_whole_seconds (clock w (ticks w) - 0) = 86400 /\
  Z.max 0 (20 - 86400 / 5) = 0 /\
  elapsed cls w = 0 /\
  mem_score cls (world_of (load_and_decay cls (resolve_decay cls (Some 5)) w))
    = Some 20 /\
  rec_score <$> stored cls (world_of (__call__ cls 0 None (Some 5) None w))
    = Some 20.
Proof. vm_compute. repeat split. Qed.

(** ** Scores stay non-negative when no negative points are added *)

Lemma __init___run cls w :
  __init__ cls w =
    (Ret tt,
     {| store := store w;
        _shared_state := <[cls_id cls := Some (stored_score cls w)]> (_shared_state w);
        clock := clock w; ticks := ticks w |},
     [EvRead (__name__ cls)]).
Proof.
  unfold __init__, _ScorekeeperSharedState__init__, _get_score, shelve_get,
    setattr_score, stored_score, stored.
  unfold_m.
  destruct (_shared_state w !! cls_id cls); unfold_world;
    rewrite ?insert_insert_eq; reflexivity.
Qed.

Lemma reset_score_run cls w :
  reset_score cls w =
    let r := {| rec_datetime := clock w (ticks w); rec_score := 0 |} in
    (Ret tt,
     {| store := <[__name__ cls := r]> (store w);
        _shared_state := <[cls_id cls := Some 0]> (_shared_state w);
        clock := clock w; ticks := S (ticks w) |},
     [EvWrite (__name__ cls) r]).
Proof.
  unfold reset_score, setattr_score. unfold_m. rewrite _set_score_run.
  unfold mem_score. unfold_world. rewrite lookup_insert_eq. reflexivity.
Qed.

Lemma nonneg_scores_update st sh cl tk k r c v w :
  nonneg_scores w ->
  0 <= rec_score r -> 0 <= v ->
  st = store w \/ st = <[k := r]> (store w) ->
  sh = _shared_state w \/ sh = <[c := Some v]> (_shared_state w) ->
  nonneg_scores {| store := st; _shared_state := sh; clock := cl; ticks := tk |}.
Proof.
  intros [Hst Hsh] Hr Hv Est Esh. split; cbn.
  - intros k' r' Hk. destruct Est as [->| ->]; [eauto|].
    rewrite lookup_insert in Hk. case_decide; [|eauto].
    injection Hk as <-. assumption.
  - intros c' s Hc. destruct Esh as [->| ->]; [eauto|].
    rewrite lookup_insert in Hc. case_decide; [|eauto].
    injection Hc as <-. assumption.
Qed.

Lemma stored_score_nonneg cls w : nonneg_scores w -> 0 <= stored_score cls w.
Proof.
  intros [Hst _]. unfold stored_score, stored.
  destruct (store w !! __name__ cls) as [r|] eqn:Hr; cbn; [eauto|lia].
Qed.

Lemma decayed_nonneg cls decay w : nonneg_scores w -> 0 <= decayed cls decay w.
Proof.
  intros Hw. unfold decayed. destruct (truthy_int decay); [lia|].
  apply stored_score_nonneg, Hw.
Qed.

Lemma mem_score_nonneg cls w s :
  nonneg_scores w -> mem_score cls w = Some s -> 0 <= s.
Proof.
  intros [_ Hsh]. unfold mem_score.
  destruct (_shared_state w !! cls_id cls) as [[s'|]|] eqn:Hc; try discriminate.
  intros [= <-]. eauto.
Qed.

Lemma __call___nonneg cls score threshold decay callback w :
  0 <= score ->
  preserves_nonneg (effective_callback cls callback) ->
  nonneg_scores w ->
  nonneg_scores (world_of (__call__ cls score threshold decay callback w)).
Proof.
  intros Hs Hcb Hw.
  pose proof (decayed_nonneg cls (resolve_decay cls decay) w Hw) as Hd.
  destruct (Z.le_gt_cases (post_add_score cls score decay w)
              (resolve_threshold cls threshold)) as [Hle|Hgt].
  - rewrite call_below by assumption. cbn.
    eapply nonneg_scores_update; [exact Hw| | |right; reflexivity|right; reflexivity];
      cbn; unfold post_add_score; lia.
  - rewrite call_above by assumption. cbn.
    assert (H0 : nonneg_scores (world_at_callback cls decay w)).
    { unfold world_at_callback.
      eapply nonneg_scores_update; [exact Hw| | |right; reflexivity|right; reflexivity];
        cbn; lia. }
    specialize (Hcb _ H0).
    destruct (effective_callback cls callback (world_at_callback cls decay w))
      as [[v|e] wc]; cbn in *; [|exact Hcb].
    destruct (mem_score cls wc) as [s|] eqn:Hm; cbn.
    + eapply nonneg_scores_update with (c := cls_id cls) (v := 0);
        [exact Hcb| | |right; reflexivity|left; reflexivity]; cbn; [|lia].
      exact (mem_score_nonneg cls wc s Hcb Hm).
    + destruct Hcb as [Hst Hsh]. split; cbn; eauto.
Qed.

Lemma run_op_nonneg op w :
  adds_only op -> nonneg_scores w -> nonneg_scores (run_op op w).
Proof.
  destruct op as [cls|cls score threshold decay callback|cls]; cbn.
  - intros _ Hw. rewrite __init___run. cbn.
    eapply nonneg_scores_update with (k := __name__ cls)
      (r := {| rec_datetime := 0; rec_score := 0 |});
      [exact Hw| | |left; reflexivity|right; reflexivity]; cbn; [lia|].
    apply stored_score_nonneg, Hw.
  - intros [Hs Hcb] Hw. apply __call___nonneg; assumption.
  - intros _ Hw. rewrite reset_score_run. cbn.
    eapply nonneg_scores_update;
      [exact Hw| | |right; reflexivity|right; reflexivity]; cbn; lia.
Qed.

(** C2, as it holds — in every state reached from one with non-negative
    scores by constructing accumulators, resetting them and calling them with
    non-negative points (and callbacks that keep scores non-negative), the
    score in memory and every score in the database is non-negative. *)
Theorem C2_nonneg_scores_when_points_nonneg (ops : list Op) (w : World) :
  Forall adds_only ops ->
  nonneg_scores w ->
  nonneg_scores (run_ops ops w).
Proof.
  intros Hops. revert w.
  induction Hops as [|op ops Hop _ IH]; intros w Hw; cbn; [assumption|].
  apply IH, run_op_nonneg; assumption.
Qed.

(** C2, as claimed, fails: points may be negative and nothing clamps the
    score after the addition.  On an empty database, one call with [-5]
    leaves [-5] in memory and in the database. *)
Lemma C2_negative_points_counterexample :
  let cls := Scorekeeper.class in
  let w := world_of (__call__ cls (-5) None None None Scenarios.fresh_world) in
  nonneg_scores Scenarios.fresh_world /\
  mem_score cls w = Some (-5) /\
  rec_score <$> stored cls w = Some (-5) /\
  ~ nonneg_scores w.
Proof.
  cbv zeta. split; [|split; [|split]].
  - split; cbn; intros ? ?; rewrite lookup_empty; discriminate.
  - vm_compute. reflexivity.
  - vm_compute. reflexivity.
  - intros [_ Hsh].
    specialize (Hsh 1%positive (-5)). 
    assert (0 <= -5); [|lia]. apply Hsh. vm_compute. reflexivity.
Qed.

Lemma C2_nonneg_scores_witness :
  nonneg_scores
    (run_ops [OpInit Scorekeeper.class;
              OpCall Scorekeeper.class 10 None None None;
              OpCall Scorekeeper.class 95 None None None;
              OpReset Scorekeeper.class]
       Scenarios.fresh_world).
Proof.
  refine (C2_nonneg_scores_when_points_nonneg _ _ _ _).
  - constructor; [exact I|].
    constructor; [split; [lia | intros w Hw; exact Hw]|].
    constructor; [split; [lia | intros w Hw; exact Hw]|].
    constructor; [exact I|]. constructor.
  - split; intros ? ?; cbn; rewrite lookup_empty; discriminate.
Defined.

(** ** Threshold, callback and persistence *)

Lemma count_app p l1 l2 : count p (l1 ++ l2) = (count p l1 + count p l2)%nat.
Proof. induction l1 as [|e l1 IH]; cbn; [reflexivity|]. rewrite IH. lia. Qed.

Lemma count_call_reads cls decay :
  count is_read (call_reads cls decay) =
    S (if decays (resolve_decay cls decay) then 1%nat else 0%nat) /\
  count is_write (call_reads cls decay) = 0%nat /\
  count is_callback (call_reads cls decay) = 0%nat.
Proof.
  unfold call_reads. destruct (decays (resolve_decay cls decay)); cbn; auto.
Qed.

Lemma world_at_callback_zero cls decay w :
  mem_score cls (world_at_callback cls decay w) = Some 0 /\
  stored cls (world_at_callback cls decay w) =
    Some {| rec_datetime := write_time cls decay w; rec_score := 0 |}.
Proof.
  unfold mem_score, stored, world_at_callback. cbn.
  rewrite !lookup_insert_eq. split; reflexivity.
Qed.

(** C3 — the callback fires if and only if the score after decay and
    addition is strictly above the resolved threshold, and then it fires
    once; after such a call the score is 0, in memory and in the database
    (for a callback that does not itself touch the accumulator). *)
Theorem C3_callback_iff_strictly_above cls score threshold decay callback w :
  let r := __call__ cls score threshold decay callback w in
  let s := post_add_score cls score decay w in
  let th := resolve_threshold cls threshold in
  count is_callback (trace_of r) = (if th <? s then 1%nat else 0%nat) /\
  (th < s ->
   keeps_scores cls (effective_callback cls callback) ->
   mem_score cls (world_of r) = Some 0 /\
   rec_score <$> stored cls (world_of r) = Some 0).
Proof.
  cbv zeta.
  destruct (count_call_reads cls decay) as (_ & _ & Hc).
  destruct (world_at_callback_zero cls decay w) as [Hm0 Hs0].
  destruct (Z.ltb_spec (resolve_threshold cls threshold)
              (post_add_score cls score decay w)) as [Hgt|Hle].
  - rewrite call_above by assumption. cbv zeta. split.
    + destruct (effective_callback cls callback (world_at_callback cls decay w))
        as [[v|e] wc]; [destruct (mem_score cls wc)|];
        unfold trace_of; cbn [snd]; rewrite ?count_app, Hc; reflexivity.
    + intros _ Hk. destruct (Hk (world_at_callback cls decay w)) as [Hkm Hks].
      destruct (effective_callback cls callback (world_at_callback cls decay w))
        as [[v|e] wc]; cbn in Hkm, Hks.
      * rewrite Hkm, Hm0. unfold world_of, mem_score, stored. cbn.
        rewrite lookup_insert_eq. cbn.
        unfold mem_score in Hkm, Hm0. rewrite Hm0 in Hkm.
        destruct (_shared_state wc !! cls_id cls) as [[s|]|]; try discriminate.
        split; [exact Hkm|reflexivity].
      * unfold world_of. cbn. rewrite Hkm, Hks, Hm0, Hs0. split; reflexivity.
  - rewrite call_below by assumption. cbv zeta. split; [|lia].
    unfold trace_of; cbn [snd]. rewrite count_app, Hc. reflexivity.
Qed.

Lemma C3_callback_witness :
  mem_score Scorekeeper.class
    (world_of (__call__ Scorekeeper.class 101 None None None
                 Scenarios.fresh_world)) = Some 0.
Proof.
  refine (proj1 (proj2 (C3_callback_iff_strictly_above Scorekeeper.class 101
                          None None None Scenarios.fresh_world) _ _)).
  - vm_compute. reflexivity.
  - intros w. split; reflexivity.
Defined.

(** C5 — every call persists the final score with the reading of the clock
    taken for that write, whether or not the threshold is exceeded; after a
    crossing the stored score is 0, also when the callback raises (the write
    is then the one of [reset_score]).  Stated for callbacks that leave the
    accumulator and the clock alone. *)
Theorem C5_every_call_persists cls score threshold decay callback w :
  keeps_scores cls (effective_callback cls callback) ->
  keeps_clock (effective_callback cls callback) ->
  let r := __call__ cls score threshold decay callback w in
  let final :=
    if resolve_threshold cls threshold <? post_add_score cls score decay w
    then 0 else post_add_score cls score decay w in
  exists n,
    (ticks w <= n < ticks (world_of r))%nat /\
    mem_score cls (world_of r) = Some final /\
    stored cls (world_of r) =
      Some {| rec_datetime := clock w n; rec_score := final |} /\
    In (EvWrite (__name__ cls) {| rec_datetime := clock w n; rec_score := final |})
       (trace_of r).
Proof.
  intros Hk Hc. cbv zeta.
  destruct (world_at_callback_zero cls decay w) as [Hm0 Hs0].
  destruct (Z.ltb_spec (resolve_threshold cls threshold)
              (post_add_score cls score decay w)) as [Hgt|Hle].
  - rewrite call_above by assumption. cbv zeta.
    destruct (Hk (world_at_callback cls decay w)) as [Hkm Hks].
    destruct (Hc (world_at_callback cls decay w)) as [Hcc Hct].
    destruct (effective_callback cls callback (world_at_callback cls decay w))
      as [[v|e] wc]; cbn in Hkm, Hks, Hcc, Hct.
    + rewrite Hkm, Hm0. exists (ticks wc).
      unfold world_of, trace_of, mem_score, stored. cbn.
      rewrite lookup_insert_eq, Hcc.
      unfold mem_score in Hkm, Hm0. rewrite Hm0 in Hkm.
      destruct (_shared_state wc !! cls_id cls) as [[s|]|]; try discriminate.
      injection Hkm as ->.
      split; [lia|]. split; [reflexivity|]. split; [reflexivity|].
      rewrite !in_app_iff. cbn [In]. auto.
    + exists (ticks w + clock_reads cls (resolve_decay cls decay) w)%nat.
      unfold world_of, trace_of. cbn [fst snd]. rewrite Hkm, Hks, Hm0, Hs0.
      split; [lia|]. split; [reflexivity|]. split; [reflexivity|].
      rewrite !in_app_iff. cbn [In]. auto.
  - rewrite call_below by assumption. cbv zeta.
    exists (ticks w + clock_reads cls (resolve_decay cls decay) w)%nat.
    unfold world_of, trace_of, mem_score, stored. cbn [fst snd store _shared_state ticks].
    rewrite !lookup_insert_eq.
    split; [lia|]. split; [reflexivity|]. split; [reflexivity|].
    rewrite !in_app_iff. cbn [In]. auto.
Qed.

Lemma C5_persists_witness :
  exists n,
    stored Scorekeeper.class
      (world_of (__call__ Scorekeeper.class 101 None None None
                   Scenarios.fresh_world)) =
    Some {| rec_datetime := clock Scenarios.fresh_world n; rec_score := 0 |}.
Proof.
  destruct (C5_every_call_persists Scorekeeper.class 101 None None None
              Scenarios.fresh_world) as (n & _ & _ & Hs & _).
  - intros w. split; reflexivity.
  - intros w. split; [reflexivity|cbn; lia].
  - exists n. exact Hs.
Defined.

(** C6, as it holds — a call reads the database once, and once more when a
    non-zero decay is in effect ([_seconds_since_last_score] reads the record
    again); it writes once, and once more when the threshold is exceeded and
    the callback returns ([reset_score] writes and so does line 99). *)
Theorem C6_reads_and_writes_of_a_call cls score threshold decay callback w :
  let r := __call__ cls score threshold decay callback w in
  count is_read (trace_of r) =
    S (if decays (resolve_decay cls decay) then 1%nat else 0%nat) /\
  count is_write (trace_of r) =
    S (if second_write cls score threshold decay callback w
       then 1%nat else 0%nat).
Proof.
  cbv zeta. unfold second_write.
  destruct (count_call_reads cls decay) as (Hr & Hw & _).
  destruct (Z.ltb_spec (resolve_threshold cls threshold)
              (post_add_score cls score decay w)) as [Hgt|Hle].
  - rewrite call_above by assumption. cbv zeta.
    destruct (effective_callback cls callback (world_at_callback cls decay w))
      as [[v|e] wc]; [destruct (mem_score cls wc)|];
      unfold trace_of; cbn [snd andb is_Some_b];
      rewrite ?count_app, Hr, Hw; cbn; split; lia.
  - rewrite call_below by assumption. cbv zeta.
    unfold trace_of; cbn [snd andb]. rewrite !count_app, Hr, Hw. cbn.
    split; lia.
Qed.

(** C6, as claimed, fails: one read and one write in every call.  With a
    decay of 5 the call reads twice; with a callback that returns it writes
    twice. *)
Lemma C6_one_read_one_write_counterexample :
  count is_read
    (trace_of (__call__ Scorekeeper.class 0 None (Some 5) None
                 Scenarios.fresh_world)) = 2%nat /\
  count is_write
    (trace_of (__call__ Scorekeeper.class 101 None None (Some Scenarios.seven)
                 Scenarios.fresh_world)) = 2%nat /\
  ~ (forall cls score threshold decay callback w,
       count is_read (trace_of (__call__ cls score threshold decay callback w))
         = 1%nat /\
       count is_write (trace_of (__call__ cls score threshold decay callback w))
         = 1%nat).
Proof.
  split; [vm_compute; reflexivity|]. split; [vm_compute; reflexivity|].
  intros H.
  destruct (H Scorekeeper.class 0 None (Some 5) None Scenarios.fresh_world)
    as [Hr _].
  vm_compute in Hr. discriminate.
Qed.

(** C10 — when a call crosses the threshold, the score is set to 0 and that
    0 is written to the database before the callback is invoked: the callback
    starts in a world where both hold 0, the write precedes the callback in
    the log, and when the callback raises the call ends there.  With the
    default callback the world that the caller is left with is that one
    world. *)
Theorem C10_reset_persisted_before_callback cls score threshold decay callback w :
  resolve_threshold cls threshold < post_add_score cls score decay w ->
  let r := __call__ cls score threshold decay callback w in
  let w0 := world_at_callback cls decay w in
  let zero := {| rec_datetime := write_time cls decay w; rec_score := 0 |} in
  let pre := call_reads cls decay ++ [EvWrite (__name__ cls) zero; EvCallback] in
  mem_score cls w0 = Some 0 /\
  stored cls w0 = Some zero /\
  (exists rest, trace_of r = pre ++ rest) /\
  (forall e wc,
     effective_callback cls callback w0 = (Raise e, wc) ->
     r = (Raise e, wc, pre)) /\
  (callback = None -> own_default_callback cls = None ->
   r = (Raise (ScoreExceededError "Score has been exceeded!"), w0, pre)).
Proof.
  intros Hgt. cbv zeta.
  destruct (world_at_callback_zero cls decay w) as [Hm0 Hs0].
  rewrite call_above by assumption. cbv zeta.
  split; [assumption|]. split; [assumption|]. split; [|split].
  - destruct (effective_callback cls callback (world_at_callback cls decay w))
      as [[v|e] wc]; [destruct (mem_score cls wc)|]; unfold trace_of; cbn [snd].
    + eexists. reflexivity.
    + exists []. rewrite app_nil_r. reflexivity.
    + exists []. rewrite app_nil_r. reflexivity.
  - intros e wc ->. reflexivity.
  - intros -> Hown.
    unfold effective_callback, resolve_callback, default_callback.
    rewrite Hown. reflexivity.
Qed.

Lemma C10_reset_witness :
  let r := __call__ Scorekeeper.class 101 None None None Scenarios.fresh_world in
  outcome_of r = Raise (ScoreExceededError "Score has been exceeded!") /\
  mem_score Scorekeeper.class (world_of r) = Some 0 /\
  rec_score <$> stored Scorekeeper.class (world_of r) = Some 0.
Proof.
  cbv zeta.
  destruct (C10_reset_persisted_before_callback Scorekeeper.class 101
              None None None Scenarios.fresh_world) as (Hm & Hs & _ & _ & Hr).
  - vm_compute. reflexivity.
  - rewrite (Hr eq_refl eq_refl). unfold outcome_of, world_of. cbn [fst snd].
    rewrite Hm, Hs. repeat split; reflexivity.
Defined.

(** ** Resolution of the configuration *)

Lemma resolve_threshold_explicit cls t :
  t <> 0 -> resolve_threshold cls (Some t) = t.
Proof.
  intros Ht. unfold resolve_threshold, truthy_int.
  destruct (Z.eqb_spec t 0); [contradiction|reflexivity].
Qed.

Lemma resolve_threshold_unset cls :
  resolve_threshold cls None = default_threshold cls.
Proof. reflexivity. Qed.

Lemma resolve_threshold_zero cls :
  resolve_threshold cls (Some 0) = default_threshold cls.
Proof. reflexivity. Qed.

Lemma resolve_decay_explicit cls d :
  d <> 0 -> resolve_decay cls (Some d) = Some d.
Proof.
  intros Hd. unfold resolve_decay, truthy_int.
  destruct (Z.eqb_spec d 0); [contradiction|reflexivity].
Qed.

Lemma resolve_decay_unset cls : resolve_decay cls None = default_decay cls.
Proof. reflexivity. Qed.

Lemma resolve_decay_zero cls : resolve_decay cls (Some 0) = default_decay cls.
Proof. reflexivity. Qed.

Lemma effective_callback_explicit cls c : effective_callback cls (Some c) = c.
Proof. reflexivity. Qed.

Lemma effective_callback_unset cls :
  effective_callback cls None = default_callback cls.
Proof. reflexivity. Qed.

Lemma default_threshold_inherited cls :
  own_default_threshold cls = None -> default_threshold cls = 100.
Proof. unfold default_threshold. intros ->. reflexivity. Qed.

Lemma default_threshold_own cls t :
  own_default_threshold cls = Some t -> default_threshold cls = t.
Proof. unfold default_threshold. intros ->. reflexivity. Qed.

Lemma default_decay_inherited cls :
  own_default_decay cls = None -> default_decay cls = None.
Proof. unfold default_decay. intros ->. reflexivity. Qed.

Lemma default_decay_own cls d :
  own_default_decay cls = Some d -> default_decay cls = d.
Proof. unfold default_decay. intros ->. reflexivity. Qed.

(** Without a truthy decay, passed or inherited, lines 93 and 94 do nothing:
    the points are added to the stored score. *)
Lemma no_decay_without_rate cls score decay w :
  truthy_int decay = None ->
  truthy_int (default_decay cls) = None ->
  decayed cls (resolve_decay cls decay) w = stored_score cls w /\
  post_add_score cls score decay w = stored_score cls w + score.
Proof.
  intros Hd Hdef. unfold post_add_score, decayed, resolve_decay.
  rewrite Hd, Hdef. split; reflexivity.
Qed.

(** C4 — an explicit argument is claimed to win over the defaults also when
    it is 0.  The source tests [if not threshold] and [if not decay], and 0
    is falsy: an explicit threshold of 0 becomes the default 100 (or the
    subclass's 50), an explicit decay of 0 becomes the subclass's 5.  With
    [threshold=0] a score of 1 is above the threshold that was passed, and
    yet the callback does not fire. *)
Theorem C4_explicit_zero_replaced_by_default :
  resolve_threshold Scorekeeper.class (Some 0) = 100 /\
  resolve_threshold Scenarios.Strict (Some 0) = 50 /\
  resolve_decay Scenarios.Cooling (Some 0) = Some 5 /\
  (let r := __call__ Scorekeeper.class 1 (Some 0) None (Some Scenarios.seven)
              Scenarios.fresh_world in
   outcome_of r = Ret VNone /\
   count is_callback (trace_of r) = 0%nat /\
   mem_score Scorekeeper.class (world_of r) = Some 1).
Proof. vm_compute. repeat split. Qed.

(** C7 — a decay of zero is claimed to switch the decay off.  In a subclass
    with [default_decay = 5] the explicit 0 is falsy, so the default takes
    its place: a score of 20 written 12.5 seconds ago goes down to 18 before
    the points are added. *)
Theorem C7_zero_decay_falls_back_to_default :
  let cls := Scenarios.Cooling in
  let w := Scenarios.aged_world "Cooling" 20 0 12500000 in
  stored_score cls w = 20 /\
  resolve_decay cls (Some 0) = Some 5 /\
  mem_score cls (world_of (load_and_decay cls (resolve_decay cls (Some 0)) w))
    = Some 18 /\
  mem_score cls (world_of (__call__ cls 0 None (Some 0) None w)) = Some 18 /\
  rec_score <$> stored cls (world_of (__call__ cls 0 None (Some 0) None w))
    = Some 18.
Proof. vm_compute. repeat split. Qed.

(** ** The decorator *)

(** C8 — the wrapped operation calls the predicate; on a falsy result it
    constructs the accumulator and calls it with the points and the keyword
    arguments; on a truthy result it does nothing; whatever the call of the
    accumulator returns, the wrapper returns [None]. *)
Theorem C8_wrapper_scores_on_falsy cls points kwargs func args w :
  let r := score cls points kwargs func args w in
  (outcome_of r = Ret VNone \/ exists e, outcome_of r = Raise e) /\
  match func w with
  | (Raise e, w1) => r = (Raise e, w1, [])
  | (Ret v, w1) =>
      if truthy v then r = (Ret VNone, w1, [])
      else
        let a := (__init__ cls ;;
                  __call__ cls points (kw_threshold kwargs) (kw_decay kwargs)
                    (kw_callback kwargs)) w1 in
        world_of r = world_of a /\
        trace_of r = trace_of a /\
        outcome_of r =
          match outcome_of a with Ret _ => Ret VNone | Raise e => Raise e end
  end.
Proof.
  cbv zeta. unfold score, call_external. unfold_m.
  destruct (func w) as [[v|e] w1]; [|split; [right; eexists|]; reflexivity].
  destruct (truthy v); cbn [negb]; [split; [left|]; reflexivity|].
  destruct (__init__ cls w1) as [[[[]|e1] w2] t2]; cbn.
  - destruct (__call__ cls points (kw_threshold kwargs) (kw_decay kwargs)
                (kw_callback kwargs) w2) as [[[v3|e3] w3] t3]; cbn;
      rewrite ?app_nil_r; (split; [eauto|]); repeat split; reflexivity.
  - rewrite ?app_nil_r. split; [eauto|]. repeat split; reflexivity.
Qed.

(** ** Identity in memory and on disk *)

(** C9 — the database is keyed by the class's name, the shared state by the
    class object: two distinct classes of the same name read the same record
    and see each other's writes, while each has a score of its own in
    memory. *)
Theorem C9_record_by_name_state_by_class c1 c2 w :
  __name__ c1 = __name__ c2 ->
  cls_id c1 <> cls_id c2 ->
  _get_score c1 w = _get_score c2 w /\
  (forall s, mem_score c1 w = Some s ->
     outcome_of (_get_score c2 (world_of (_set_score c1 w))) =
       Ret (Some (clock w (ticks w)), s)) /\
  mem_score c2 (world_of (__init__ c1 w)) = mem_score c2 w /\
  (forall v, mem_score c2 (world_of (setattr_score c1 v w)) = mem_score c2 w) /\
  (forall score threshold decay callback,
     post_add_score c1 score decay w <= resolve_threshold c1 threshold ->
     let w' := world_of (__call__ c1 score threshold decay callback w) in
     mem_score c1 w' = Some (post_add_score c1 score decay w) /\
     mem_score c2 w' = mem_score c2 w /\
     stored_score c2 w' = post_add_score c1 score decay w).
Proof.
  intros Hname Hid. split; [|split; [|split; [|split]]].
  - unfold _get_score. rewrite Hname. reflexivity.
  - intros s Hs. rewrite _set_score_run, Hs.
    unfold _get_score, shelve_get, outcome_of, world_of. unfold_m. cbn.
    rewrite <- Hname, lookup_insert_eq. reflexivity.
  - rewrite __init___run. unfold world_of, mem_score. cbn.
    rewrite lookup_insert_ne by assumption. reflexivity.
  - intros v. unfold setattr_score, world_of, mem_score. unfold_world.
    rewrite lookup_insert_ne by assumption. reflexivity.
  - intros score threshold decay callback Hle.
    rewrite call_below by assumption. cbv zeta.
    unfold world_of, mem_score, stored_score, stored. cbn.
    rewrite lookup_insert_eq, lookup_insert_ne by assumption.
    rewrite <- Hname, lookup_insert_eq. repeat split; reflexivity.
Qed.

Lemma C9_homonym_witness :
  let w := world_of (__call__ Scorekeeper.class 10 None None None
                       Scenarios.fresh_world) in
  mem_score Scorekeeper.class w = Some 10 /\
  mem_score Scenarios.Homonym w = None /\
  stored_score Scenarios.Homonym w = 10.
Proof.
  cbv zeta.
  destruct (C9_record_by_name_state_by_class Scorekeeper.class
              Scenarios.Homonym Scenarios.fresh_world)
    as (_ & _ & _ & _ & Hcall).
  - reflexivity.
  - cbn. discriminate.
  - destruct (Hcall 10 None None None) as (H1 & H2 & H3).
    + vm_compute. discriminate.
    + rewrite H1, H2, H3. vm_compute. repeat split; reflexivity.
Defined.


(** * Further properties of the module *)

(** ** The database and the shared state *)

(** What [_set_score] writes is what [_get_score] reads next: the reading
    of the clock taken for the write and the score bound in memory. *)
Theorem set_score_then_get_score cls s w :
  mem_score cls w = Some s ->
  let r := (_set_score cls ;; _get_score cls) w in
  outcome_of r = Ret (Some (clock w (ticks w)), s) /\
  trace_of r =
    [EvWrite (__name__ cls) {| rec_datetime := clock w (ticks w); rec_score := s |};
     EvRead (__name__ cls)].
Proof.
  intros Hs. cbv zeta. unfold mbind, M_bind. rewrite _set_score_run, Hs.
  unfold _get_score, shelve_get, outcome_of, trace_of. unfold_m. cbn.
  rewrite lookup_insert_eq. split; reflexivity.
Qed.

Lemma set_score_then_get_score_witness :
  let w := world_of (__init__ Scorekeeper.class
                       (Scenarios.aged_world "Scorekeeper" 20 0 5)) in
  outcome_of ((_set_score Scorekeeper.class ;; _get_score Scorekeeper.class) w)
    = Ret (Some 5, 20).
Proof.
  cbv zeta.
  refine (proj1 (set_score_then_get_score Scorekeeper.class 20 _ _)).
  vm_compute. reflexivity.
Defined.

(** Constructing an accumulator binds the shared score of its class to the
    stored score, whatever was bound before; it reads the database once and
    changes neither the database nor the state of another class. *)
Theorem init_reloads_shared_score cls w :
  let r := __init__ cls w in
  outcome_of r = Ret tt /\
  mem_score cls (world_of r) = Some (stored_score cls w) /\
  store (world_of r) = store w /\
  delete (cls_id cls) (_shared_state (world_of r)) =
    delete (cls_id cls) (_shared_state w) /\
  trace_of r = [EvRead (__name__ cls)].
Proof.
  cbv zeta. rewrite __init___run.
  unfold outcome_of, world_of, trace_of, mem_score. cbn.
  rewrite lookup_insert_eq, delete_insert_eq. repeat split; reflexivity.
Qed.

(** [reset_score] does not raise, also when no score is bound yet; it leaves
    0 in memory and in the database, stamped with the reading of the clock,
    and a second reset only moves the timestamp on. *)
Theorem reset_score_twice cls w :
  let r1 := reset_score cls w in
  let r2 := reset_score cls (world_of r1) in
  outcome_of r1 = Ret tt /\
  mem_score cls (world_of r1) = Some 0 /\
  stored cls (world_of r1) =
    Some {| rec_datetime := clock w (ticks w); rec_score := 0 |} /\
  outcome_of r2 = Ret tt /\
  mem_score cls (world_of r2) = Some 0 /\
  stored cls (world_of r2) =
    Some {| rec_datetime := clock w (S (ticks w)); rec_score := 0 |}.
Proof.
  cbv zeta. rewrite !reset_score_run. cbv zeta.
  unfold outcome_of, world_of, mem_score, stored. cbn.
  rewrite !lookup_insert_eq. repeat split; reflexivity.
Qed.

Lemma decayed_set_shared cls decay f w :
  decayed cls decay (set_shared f w) = decayed cls decay w.
Proof. reflexivity. Qed.

(** A call starts from the stored score, not from the one in memory: the
    score bound in memory before the call makes no difference to the call,
    and neither does constructing the accumulator once more before it. *)
Theorem call_ignores_score_in_memory cls score threshold decay callback x w :
  __call__ cls score threshold decay callback
    (set_shared <[cls_id cls := x]> w) =
  __call__ cls score threshold decay callback w /\
  __call__ cls score threshold decay callback (world_of (__init__ cls w)) =
  __call__ cls score threshold decay callback w.
Proof.
  assert (H : forall y,
    __call__ cls score threshold decay callback
      (set_shared <[cls_id cls := y]> w) =
    __call__ cls score threshold decay callback w).
  { intros y.
    destruct (Z.le_gt_cases (post_add_score cls score decay w)
                (resolve_threshold cls threshold)) as [Hle|Hgt].
    - rewrite (call_below _ _ _ _ _ w) by assumption.
      rewrite call_below by exact Hle.
      cbv zeta. unfold write_time, clock_reads, stored, post_add_score.
      unfold_world. rewrite insert_insert_eq. reflexivity.
    - rewrite (call_above _ _ _ _ _ w) by assumption.
      rewrite call_above by exact Hgt.
      cbv zeta.
      assert (Hw : world_at_callback cls decay (set_shared <[cls_id cls := y]> w)
                   = world_at_callback cls decay w).
      { unfold world_at_callback, write_time, clock_reads, stored.
        unfold_world. rewrite insert_insert_eq. reflexivity. }
      rewrite Hw. reflexivity. }
  split; [apply H|].
  rewrite __init___run. apply (H (Some (stored_score cls w))).
Qed.

(** ** Calls that stay below the threshold *)

(** While the threshold is not exceeded the callback plays no part: the call
    returns [None], and it is the same call whatever callback is passed. *)
Theorem call_below_threshold_needs_no_callback
    cls score threshold decay callback callback' w :
  post_add_score cls score decay w <= resolve_threshold cls threshold ->
  outcome_of (__call__ cls score threshold decay callback w) = Ret VNone /\
  __call__ cls score threshold decay callback w =
    __call__ cls score threshold decay callback' w.
Proof.
  intros Hle. rewrite !call_below by assumption. split; reflexivity.
Qed.

Lemma call_below_threshold_witness :
  outcome_of (__call__ Scorekeeper.class 100 None None None
                Scenarios.fresh_world) = Ret VNone.
Proof.
  refine (proj1 (call_below_threshold_needs_no_callback Scorekeeper.class 100
                   None None None None Scenarios.fresh_world _)).
  vm_compute. discriminate.
Defined.

(** On a class that has no record yet the first call stores exactly the
    points, with or without a decay: there is no last update to measure the
    time from. *)
Theorem first_call_stores_the_points cls score threshold decay callback w :
  stored cls w = None ->
  score <= resolve_threshold cls threshold ->
  let r := __call__ cls score threshold decay callback w in
  outcome_of r = Ret VNone /\
  mem_score cls (world_of r) = Some score /\
  stored cls (world_of r) =
    Some {| rec_datetime := clock w (ticks w); rec_score := score |}.
Proof.
  intros Hnone Hle. cbv zeta.
  assert (Hp : post_add_score cls score decay w = score).
  { unfold post_add_score. rewrite decayed_no_record by assumption. lia. }
  rewrite call_below by lia. cbv zeta.
  unfold outcome_of, world_of, mem_score, stored, write_time, clock_reads. cbn.
  rewrite !lookup_insert_eq, Hp, Hnone.
  destruct (decays (resolve_decay cls decay)); cbn; rewrite Nat.add_0_r;
    repeat split; reflexivity.
Qed.

Lemma first_call_witness :
  mem_score Scenarios.Cooling
    (world_of (__call__ Scenarios.Cooling 30 None (Some 2) None
                 Scenarios.fresh_world)) = Some 30.
Proof.
  refine (proj1 (proj2 (first_call_stores_the_points Scenarios.Cooling 30
                          None (Some 2) None Scenarios.fresh_world _ _))).
  - reflexivity.
  - vm_compute. discriminate.
Defined.

Lemma run_calls_no_decay cls ps : forall w,
  truthy_int (default_decay cls) = None ->
  stays_below (default_threshold cls) (stored_score cls w) ps ->
  stored_score cls (run_calls cls ps w) = stored_score cls w + total ps.
Proof.
  induction ps as [|p ps IH]; intros w Hdef Hb.
  - unfold total. cbn [run_calls fold_right]. lia.
  - cbn [stays_below] in Hb. destruct Hb as [Hp Hb].
    destruct (no_decay_without_rate cls p None w eq_refl Hdef) as [_ Hpost].
    assert (Hs : stored_score cls (world_of (__call__ cls p None None None w))
                 = stored_score cls w + p).
    { rewrite call_below by (rewrite Hpost; exact Hp). cbv zeta.
      unfold world_of, stored_score, stored. cbn.
      rewrite lookup_insert_eq, Hpost. reflexivity. }
    cbn [run_calls]. rewrite IH by (try rewrite Hs; assumption).
    rewrite Hs. unfold total. cbn [fold_right]. lia.
Qed.

(** Without a decay, points add up: after a sequence of calls none of whose
    partial sums goes above the threshold, the stored score is the one from
    before plus the sum of the points. *)
Theorem points_add_up cls ps w :
  truthy_int (default_decay cls) = None ->
  stays_below (default_threshold cls) (stored_score cls w) ps ->
  stored_score cls (run_calls cls ps w) = stored_score cls w + total ps /\
  (ps <> [] ->
   mem_score cls (run_calls cls ps w) = Some (stored_score cls w + total ps)).
Proof.
  intros Hdef Hb. split; [apply run_calls_no_decay; assumption|].
  intros Hne. destruct (exists_last Hne) as (qs & q & ->).
  clear Hne. revert w Hb.
  induction qs as [|p qs IH]; intros w Hb.
  - cbn [app run_calls stays_below] in Hb |- *. destruct Hb as [Hq _].
    destruct (no_decay_without_rate cls q None w eq_refl Hdef) as [_ Hpost].
    rewrite call_below by (rewrite Hpost; exact Hq). cbv zeta.
    unfold world_of, mem_score. cbn. rewrite lookup_insert_eq, Hpost.
    f_equal. unfold total. cbn [fold_right]. lia.
  - cbn [app run_calls]. cbn [app stays_below] in Hb. destruct Hb as [Hp Hb].
    destruct (no_decay_without_rate cls p None w eq_refl Hdef) as [_ Hpost].
    assert (Hs : stored_score cls (world_of (__call__ cls p None None None w))
                 = stored_score cls w + p).
    { rewrite call_below by (rewrite Hpost; exact Hp). cbv zeta.
      unfold world_of, stored_score, stored. cbn.
      rewrite lookup_insert_eq, Hpost. reflexivity. }
    rewrite IH by (rewrite Hs; exact Hb).
    rewrite Hs. f_equal. unfold total. cbn [app fold_right]. lia.
Qed.

Lemma points_add_up_witness :
  stored_score Scorekeeper.class
    (run_calls Scorekeeper.class [10; 20; 30] Scenarios.fresh_world) =
  stored_score Scorekeeper.class Scenarios.fresh_world + total [10; 20; 30].
Proof.
  refine (proj1 (points_add_up Scorekeeper.class [10; 20; 30]
                   Scenarios.fresh_world _ _)).
  - reflexivity.
  - vm_compute. repeat split; discriminate.
Defined.

(** ** Decay *)

Lemma elapsed_range cls w : 0 <= elapsed cls w <= 86399.
Proof.
  unfold elapsed. destruct (stored cls w) as [r|]; [|lia].
  pose proof (timedelta_seconds_range (clock w (ticks w) - rec_datetime r)).
  lia.
Qed.

Lemma truthy_int_some d : d <> 0 -> truthy_int (Some d) = Some d.
Proof.
  intros Hd. unfold truthy_int. destruct (Z.eqb_spec d 0); [contradiction|].
  reflexivity.
Qed.

Lemma load_and_decay_mem_score cls decay w :
  mem_score cls (world_of (load_and_decay cls decay w)) =
    Some (decayed cls decay w).
Proof.
  rewrite load_and_decay_run. unfold world_of, mem_score. cbn.
  rewrite lookup_insert_eq. reflexivity.
Qed.

(** With a positive rate the decay step lowers the score, never below 0 and
    never by more than [86399 / rate] points in one call, however long ago
    the last update was. *)
Theorem decay_step_bounds cls D w :
  0 < D ->
  exists d,
    mem_score cls (world_of (load_and_decay cls (Some D) w)) = Some d /\
    0 <= d /\
    d <= Z.max 0 (stored_score cls w) /\
    stored_score cls w - 86399 / D <= d.
Proof.
  intros HD. exists (decayed cls (Some D) w).
  split; [apply load_and_decay_mem_score|].
  rewrite (decayed_unfold cls (Some D) D w) by (apply truthy_int_some; lia).
  pose proof (elapsed_range cls w) as He.
  rewrite Z.quot_div_nonneg by lia.
  assert (0 <= elapsed cls w / D) by (apply Z.div_pos; lia).
  assert (elapsed cls w / D <= 86399 / D) by (apply Z.div_le_mono; lia).
  lia.
Qed.

Lemma decay_step_bounds_witness :
  exists d,
    mem_score Scorekeeper.class
      (world_of (load_and_decay Scorekeeper.class (Some 5)
                   (Scenarios.aged_world "Scorekeeper" 20 0 12000000))) = Some d /\
    0 <= d.
Proof.
  destruct (decay_step_bounds Scorekeeper.class 5
              (Scenarios.aged_world "Scorekeeper" 20 0 12000000))
    as (d & Hd & H0 & _).
  - lia.
  - exists d. split; assumption.
Defined.

(** Less than a day after the last update a call with a positive decay [D]
    that stays below the threshold stores the old score, less one point for
    every [D] whole seconds that have passed but not below 0, plus the new
    points. *)
Theorem call_decays_by_elapsed_seconds_within_a_day
    cls score threshold D callback r w :
  0 < D ->
  stored cls w = Some r ->
  0 <= clock w (ticks w) - rec_datetime r < 86400 * 1000000 ->
  let T := timedelta_whole_seconds (clock w (ticks w) - rec_datetime r) in
  let s := Z.max 0 (rec_score r - T / D) + score in
  s <= resolve_threshold cls threshold ->
  let res := __call__ cls score threshold (Some D) callback w in
  outcome_of res = Ret VNone /\
  mem_score cls (world_of res) = Some s /\
  stored cls (world_of res) =
    Some {| rec_datetime := clock w (S (ticks w)); rec_score := s |}.
Proof.
  intros HD Hr Ht. cbv zeta. intros Hle.
  assert (Hres : resolve_decay cls (Some D) = Some D).
  { apply resolve_decay_explicit. lia. }
  assert (Hp : post_add_score cls score (Some D) w =
               Z.max 0 (rec_score r -
                 timedelta_whole_seconds (clock w (ticks w) - rec_datetime r) / D)
               + score).
  { unfold post_add_score. rewrite Hres.
    rewrite (decayed_within_day cls D r w HD Hr Ht). reflexivity. }
  rewrite call_below by (rewrite Hp; exact Hle). cbv zeta.
  unfold outcome_of, world_of, mem_score, stored, write_time, clock_reads. cbn.
  rewrite !lookup_insert_eq, Hp, Hres, Hr.
  unfold decays. rewrite truthy_int_some by lia. cbn.
  replace (ticks w + 1)%nat with (S (ticks w)) by lia.
  repeat split; reflexivity.
Qed.

Lemma call_decays_within_a_day_witness :
  mem_score Scorekeeper.class
    (world_of (__call__ Scorekeeper.class 1 None (Some 5) None
                 (Scenarios.aged_world "Scorekeeper" 20 0 12000000))) = Some 19.
Proof.
  refine (proj1 (proj2 (call_decays_by_elapsed_seconds_within_a_day
            Scorekeeper.class 1 None 5 None
            {| rec_datetime := 0; rec_score := 20 |}
            (Scenarios.aged_world "Scorekeeper" 20 0 12000000) _ _ _ _))).
  - lia.
  - reflexivity.
  - vm_compute. split; [discriminate|reflexivity].
  - vm_compute. discriminate.
Defined.

(** When the stored timestamp is ahead of the clock by [k] whole seconds
    (the clock was set back), [_seconds_since_last_score] does not return a
    negative number or 0 but [86400 - k]: the seconds component of a negative
    timedelta. *)
Theorem seconds_since_a_future_timestamp cls r k w :
  stored cls w = Some r ->
  0 < k <= 86400 ->
  rec_datetime r - clock w (ticks w) = k * 1000000 ->
  outcome_of (_seconds_since_last_score cls w) = Ret (86400 - k).
Proof.
  intros Hr Hk Hd.
  unfold _seconds_since_last_score, _get_score, shelve_get, datetime_now,
    outcome_of. unfold_m. cbn.
  unfold stored in Hr. rewrite Hr. cbn.
  replace (clock w (ticks w) - rec_datetime r) with ((- k) * 1000000) by lia.
  unfold timedelta_seconds. rewrite Z.div_mul by lia.
  replace (- k) with ((86400 - k) + (-1) * 86400) by lia.
  rewrite Z.mod_add by lia. rewrite Z.mod_small by lia. reflexivity.
Qed.

Lemma seconds_since_a_future_timestamp_witness :
  outcome_of (_seconds_since_last_score Scorekeeper.class
                (Scenarios.aged_world "Scorekeeper" 20 1000000 0)) = Ret 86399.
Proof.
  refine (seconds_since_a_future_timestamp Scorekeeper.class
            {| rec_datetime := 1000000; rec_score := 20 |} 1
            (Scenarios.aged_world "Scorekeeper" 20 1000000 0) _ _ _).
  - reflexivity.
  - lia.
  - reflexivity.
Defined.

(** A negative rate turns the decay around: the step then never lowers a
    non-negative score, it raises it by one point for every [- rate] seconds
    of the seconds component of the elapsed time. *)
Theorem negative_rate_raises_the_score cls D w :
  D < 0 ->
  0 <= stored_score cls w ->
  mem_score cls (world_of (load_and_decay cls (Some D) w)) =
    Some (stored_score cls w + elapsed cls w / (- D)).
Proof.
  intros HD HS. rewrite load_and_decay_mem_score.
  rewrite (decayed_unfold cls (Some D) D w) by (apply truthy_int_some; lia).
  pose proof (elapsed_range cls w) as He.
  replace D with (- - D) at 1 by lia.
  rewrite Z.quot_opp_r by lia. rewrite Z.quot_div_nonneg by lia.
  assert (0 <= elapsed cls w / - D) by (apply Z.div_pos; lia).
  f_equal. lia.
Qed.

Lemma negative_rate_witness :
  mem_score Scorekeeper.class
    (world_of (load_and_decay Scorekeeper.class (Some (-5))
                 (Scenarios.aged_world "Scorekeeper" 20 0 12000000))) = Some 22.
Proof.
  rewrite (negative_rate_raises_the_score Scorekeeper.class (-5)
             (Scenarios.aged_world "Scorekeeper" 20 0 12000000)).
  - vm_compute. reflexivity.
  - lia.
  - vm_compute. discriminate.
Defined.

(** Called with a rate of 0, [_decay] raises [ZeroDivisionError] and leaves
    the score in memory and the database as they were. *)
Theorem decay_by_zero_raises cls w :
  let r := _decay cls 0 w in
  outcome_of r = Raise ZeroDivisionError /\
  store (world_of r) = store w /\
  _shared_state (world_of r) = _shared_state w.
Proof.
  cbv zeta.
  unfold _decay, _seconds_since_last_score, _get_score, shelve_get,
    datetime_now, outcome_of, world_of. unfold_m. cbn.
  destruct (store w !! __name__ cls) as [r|]; cbn; repeat split; reflexivity.
Qed.

(** ** Callbacks and other classes *)

(** When the threshold is exceeded and the callback returns, the call
    returns the callback's value, and the write of line 99 persists the score
    that the callback has left in memory: 0 unless the callback has bound
    another one. *)
Theorem call_returns_the_callback_value
    cls score threshold decay callback v wc s w :
  resolve_threshold cls threshold < post_add_score cls score decay w ->
  effective_callback cls callback (world_at_callback cls decay w) = (Ret v, wc) ->
  mem_score cls wc = Some s ->
  let r := __call__ cls score threshold decay callback w in
  outcome_of r = Ret v /\
  mem_score cls (world_of r) = Some s /\
  stored cls (world_of r) =
    Some {| rec_datetime := clock wc (ticks wc); rec_score := s |} /\
  count is_write (trace_of r) = 2%nat.
Proof.
  intros Hgt Hcb Hs. cbv zeta.
  destruct (count_call_reads cls decay) as (_ & Hw & _).
  rewrite call_above by assumption. cbv zeta. rewrite Hcb, Hs.
  unfold outcome_of, world_of, trace_of, stored. cbn [fst snd store].
  rewrite lookup_insert_eq, !count_app, Hw.
  split; [reflexivity|]. split; [|split; reflexivity].
  unfold mem_score in Hs |- *. cbn. exact Hs.
Qed.

Lemma call_returns_the_callback_value_witness :
  let r := __call__ Scorekeeper.class 101 None None (Some Scenarios_meddling)
             Scenarios.fresh_world in
  outcome_of r = Ret (VInt 7) /\
  mem_score Scorekeeper.class (world_of r) = Some 5 /\
  rec_score <$> stored Scorekeeper.class (world_of r) = Some 5.
Proof.
  cbv zeta.
  destruct (call_returns_the_callback_value Scorekeeper.class 101 None None
              (Some Scenarios_meddling) (VInt 7)
              (set_shared <[1%positive := Some 5]>
                 (world_at_callback Scorekeeper.class None Scenarios.fresh_world))
              5 Scenarios.fresh_world) as (Ho & Hm & Hs & _).
  - vm_compute. reflexivity.
  - reflexivity.
  - vm_compute. reflexivity.
  - rewrite Ho, Hm, Hs. repeat split; reflexivity.
Defined.

(** A call on one class leaves a class of another name alone, in memory and
    in the database, as long as the callback does. *)
Theorem call_leaves_other_classes_alone
    c1 c2 score threshold decay callback w :
  __name__ c1 <> __name__ c2 ->
  cls_id c1 <> cls_id c2 ->
  keeps_scores c2 (effective_callback c1 callback) ->
  let r := __call__ c1 score threshold decay callback w in
  mem_score c2 (world_of r) = mem_score c2 w /\
  stored c2 (world_of r) = stored c2 w.
Proof.
  intros Hname Hid Hk. cbv zeta.
  destruct (Z.le_gt_cases (post_add_score c1 score decay w)
              (resolve_threshold c1 threshold)) as [Hle|Hgt].
  - rewrite call_below by assumption. cbv zeta.
    unfold world_of, mem_score, stored. cbn.
    rewrite !lookup_insert_ne by assumption. split; reflexivity.
  - rewrite call_above by assumption. cbv zeta.
    assert (H0 : mem_score c2 (world_at_callback c1 decay w) = mem_score c2 w /\
                 stored c2 (world_at_callback c1 decay w) = stored c2 w).
    { unfold world_at_callback, mem_score, stored. cbn.
      rewrite !lookup_insert_ne by assumption. split; reflexivity. }
    destruct H0 as [Hm0 Hs0].
    destruct (Hk (world_at_callback c1 decay w)) as [Hkm Hks].
    destruct (effective_callback c1 callback (world_at_callback c1 decay w))
      as [[v|e] wc]; cbn [snd] in Hkm, Hks.
    + destruct (mem_score c1 wc) as [s|]; unfold world_of; cbn [fst snd].
      * unfold mem_score, stored in *. cbn.
        rewrite lookup_insert_ne by assumption.
        rewrite Hkm, Hks, Hm0, Hs0. split; reflexivity.
      * unfold tick, mem_score, stored in *. cbn.
        rewrite Hkm, Hks, Hm0, Hs0. split; reflexivity.
    + unfold world_of. cbn [fst snd].
      rewrite Hkm, Hks, Hm0, Hs0. split; reflexivity.
Qed.

Lemma call_leaves_other_classes_alone_witness :
  let w := Scenarios.aged_world "Cooling" 20 0 12000000 in
  stored Scenarios.Cooling
    (world_of (__call__ Scorekeeper.class 101 None None None w)) =
  stored Scenarios.Cooling w.
Proof.
  cbv zeta.
  refine (proj2 (call_leaves_other_classes_alone Scorekeeper.class
                   Scenarios.Cooling 101 None None None _ _ _ _)).
  - vm_compute. discriminate.
  - vm_compute. discriminate.
  - intros w. split; reflexivity.
Defined.
